(** * WinRoute_EnsureTopMetric: the exception-to-status adapter of winroute.dll

    Source: [src/windows/winroute/src/winroute/winroute.cpp].

    The exported function builds a [NetworkInterfaces] object, asks it to give
    the interface named by [deviceAlias] the top metric, and turns whatever
    happens into an [int32_t] status: [1], [0] or [-1].  C++ exceptions are
    embedded as an explicit completion ([Normal] / [Thrown]); the calls made
    through the error sink are collected in a trace. Both the collaborator
    and the function behind the error sink are outside the file: what they
    do (return, throw, change the state) is a parameter of the model. *)

From Stdlib Require Import ZArith NArith String List Bool Lia.
Import ListNotations.
Local Open Scope Z_scope.

(** ** Values that cross the C interface *)

(** [wchar_t] on Windows: a 16-bit code unit. *)
Definition wchar_t := N.

(** [const wchar_t *]: the null pointer, or the code units before the
    terminating NUL. The adapter never looks inside. *)
Definition const_wchar_ptr := option (list wchar_t).

(** [void *] and pointers to functions are addresses; address 0 is null. *)
Definition void_ptr := N.
Definition nullptr : N := 0%N.

(** [int32_t]. *)
Definition int32_t := Z.
Definition INT32_MIN : Z := - 2 ^ 31.
Definition INT32_MAX : Z := 2 ^ 31 - 1.

(** Modelled from the spec: the type [WinRouteErrorSink] is declared in
    winroute.h, which is not among the sources. The spec gives it as a
    function reference of the C interface "taking a text message and an opaque
    context pointer, or absent", consumed across a calling-convention
    boundary: a pointer to a C callback, null when absent. *)
Definition WinRouteErrorSink := N.

(** One call made through the sink: [errorSink(message, context)]. *)
Record sink_call := SinkCall {
  callee  : WinRouteErrorSink;
  message : string;
  context : void_ptr
}.

(** ** Exceptions *)

(** What a [throw] carries, as far as the two handlers of the adapter can
    tell: an object of a class derived from [std::exception], seen through
    [what()], or an object of any other type ([throw 5], a foreign error
    code, ...), which only [catch (...)] matches. *)
Inductive thrown :=
| std_exception (what : string)
| foreign_object (payload : Z).

Inductive completion (A : Type) :=
| Normal (a : A)
| Thrown (t : thrown).
Arguments Normal {A} a.
Arguments Thrown {A} t.

(** ** The collaborator

    [NetworkInterfaces] (NetworkInterfaces.h) is not among the sources; it is
    taken as a parameter. [OS] is the state the calls work on: the interface
    table of the operating system and whatever else the process can reach.
    The constructor and the member function may throw; the destructor, as any
    C++ destructor, does not. *)
Class NetworkInterfacesClass (OS : Type) := {
  NetworkInterfaces : Type;
  NetworkInterfaces_ctor : OS -> completion NetworkInterfaces * OS;
  SetTopMetricForInterfaceByAlias :
    NetworkInterfaces -> const_wchar_ptr -> OS -> completion bool * OS;
  NetworkInterfaces_dtor : NetworkInterfaces -> OS -> OS
}.

(** ** The caller's callbacks

    The function behind a [WinRouteErrorSink] pointer belongs to the caller.
    What it does when called with a message and a context is a parameter as
    well: it may change the state, and nothing in the adapter keeps it from
    throwing. *)
Class ErrorSinks (OS : Type) := {
  invoke_sink :
    WinRouteErrorSink -> string -> void_ptr -> OS -> completion unit * OS
}.

(** A sink that comes back from every call. *)
Definition sink_returns (OS : Type) {ES : ErrorSinks OS}
    (errorSink : WinRouteErrorSink) : Prop :=
  forall (msg : string) (ctx : void_ptr) (s : OS),
    fst (invoke_sink errorSink msg ctx s) = Normal tt.

(** ** Computations: state, exceptions, sink trace *)

Record outcome (OS A : Type) := Outcome {
  res        : completion A;
  os_after   : OS;
  sink_calls : list sink_call
}.
Arguments Outcome {OS A} res os_after sink_calls.
Arguments res {OS A} o.
Arguments os_after {OS A} o.
Arguments sink_calls {OS A} o.

Definition M (OS A : Type) := OS -> outcome OS A.

Definition ret {OS A} (a : A) : M OS A :=
  fun s => Outcome (Normal a) s [].

Definition throw {OS A} (t : thrown) : M OS A :=
  fun s => Outcome (Thrown t) s [].

(** Sequencing: an exception in the first statement skips the rest; what the
    first statement did to the state and to the trace stays. *)
Definition bind {OS A B} (c : M OS A) (k : A -> M OS B) : M OS B :=
  fun s =>
    let o1 := c s in
    match res o1 with
    | Normal a =>
        let o2 := k a (os_after o1) in
        Outcome (res o2) (os_after o2) (sink_calls o1 ++ sink_calls o2)
    | Thrown t => Outcome (Thrown t) (os_after o1) (sink_calls o1)
    end.

Declare Scope cxx_scope.
Delimit Scope cxx_scope with cxx.
Notation "x <- c ;; k" := (bind c (fun x => k))
  (at level 61, c at next level, right associativity) : cxx_scope.
Notation "c ;;; k" := (bind c (fun _ => k))
  (at level 61, right associativity) : cxx_scope.

(** [try { body } catch ... ]: the handlers run only for what [body] throws.
    An exception leaving a handler is not offered to the sibling handlers: it
    leaves the [try] statement. *)
Definition try_catch {OS A} (body : M OS A) (handlers : thrown -> M OS A) : M OS A :=
  fun s =>
    let o1 := body s in
    match res o1 with
    | Normal a => o1
    | Thrown t =>
        let o2 := handlers t (os_after o1) in
        Outcome (res o2) (os_after o2) (sink_calls o1 ++ sink_calls o2)
    end.

(** A call of the collaborator. *)
Definition external {OS A} (f : OS -> completion A * OS) : M OS A :=
  fun s => Outcome (fst (f s)) (snd (f s)) [].

(** The scope of a local object: its destructor runs when control leaves the
    scope, by [return] or by an exception passing through. *)
Definition scope_of {OS A} (destroy : OS -> OS) (body : M OS A) : M OS A :=
  fun s =>
    let o := body s in
    Outcome (res o) (destroy (os_after o)) (sink_calls o).

(** [errorSink(msg, errorSinkContext)]: a call through the pointer. The call
    is recorded in the trace; it completes as the callee does, and leaves the
    state the callee leaves. *)
Definition call_sink {OS} {ES : ErrorSinks OS} (errorSink : WinRouteErrorSink)
    (msg : string) (errorSinkContext : void_ptr) : M OS unit :=
  fun s =>
    let r := invoke_sink errorSink msg errorSinkContext s in
    Outcome (fst r) (snd r) [SinkCall errorSink msg errorSinkContext].

(** ** The adapter *)

Section Adapter.
Context {OS : Type} {NI : NetworkInterfacesClass OS} {ES : ErrorSinks OS}.
Local Open Scope cxx_scope.

(** winroute.cpp, lines 7-34. *)
Definition WinRoute_EnsureTopMetric
    (deviceAlias : const_wchar_ptr)
    (errorSink : WinRouteErrorSink)
    (errorSinkContext : void_ptr) : M OS int32_t :=
  try_catch
    (interfaces <- external NetworkInterfaces_ctor ;;
     scope_of (NetworkInterfaces_dtor interfaces)
       (metrics_set <-
          external (SetTopMetricForInterfaceByAlias interfaces deviceAlias) ;;
        ret (if metrics_set : bool then 1 else 0)))
    (fun exn =>
       match exn with
       | std_exception what =>
           (if negb (N.eqb nullptr errorSink)
            then call_sink errorSink what errorSinkContext
            else ret tt) ;;;
           ret (-1)
       | foreign_object _ =>
           ret (-1)
       end).

(** *** What the collaborator does during one call

    The adapter makes at most two calls of the collaborator that can fail:
    the constructor and the member function. [collaborator_outcome] is what
    they come to for the alias, from the state the call starts in, and
    [collaborator_effect] the state they leave once the object, if there was
    one, is destroyed. *)
Definition collaborator_outcome (deviceAlias : const_wchar_ptr) (s : OS)
    : completion bool :=
  match NetworkInterfaces_ctor s with
  | (Normal interfaces, s1) =>
      fst (SetTopMetricForInterfaceByAlias interfaces deviceAlias s1)
  | (Thrown t, _) => Thrown t
  end.

Definition collaborator_effect (deviceAlias : const_wchar_ptr) (s : OS) : OS :=
  match NetworkInterfaces_ctor s with
  | (Normal interfaces, s1) =>
      NetworkInterfaces_dtor interfaces
        (snd (SetTopMetricForInterfaceByAlias interfaces deviceAlias s1))
  | (Thrown _, s1) => s1
  end.

(** How the first handler completes once the collaborator has thrown an
    object derived from [std::exception]: with -1 if there is no callback to
    call; as the callback does, if there is one. *)
Definition handler_completion (deviceAlias : const_wchar_ptr)
    (errorSink : WinRouteErrorSink) (errorSinkContext : void_ptr) (s : OS)
    (what : string) : completion int32_t :=
  if N.eqb nullptr errorSink then Normal (-1)
  else
    match fst (invoke_sink errorSink what errorSinkContext
                 (collaborator_effect deviceAlias s)) with
    | Normal _ => Normal (-1)
    | Thrown t => Thrown t
    end.

End Adapter.

(** The four kinds of outcome the spec tells apart. *)
Inductive outcome_kind :=
| ReturnedTrue
| ReturnedFalse
| TypedFailure
| UntypedFailure.

Definition kind_of (c : completion bool) : outcome_kind :=
  match c with
  | Normal true => ReturnedTrue
  | Normal false => ReturnedFalse
  | Thrown (std_exception _) => TypedFailure
  | Thrown (foreign_object _) => UntypedFailure
  end.

(** The calls the first handler makes through the sink when the sink is
    [errorSink]: none if the pointer is null. *)
Definition report (errorSink : WinRouteErrorSink) (what : string)
    (errorSinkContext : void_ptr) : list sink_call :=
  if N.eqb nullptr errorSink then []
  else [SinkCall errorSink what errorSinkContext].

(** ** A stub collaborator

    A test double that replays a fixed script: what the constructor does and
    what the member function does. It changes nothing in the state. Its
    callbacks return, except the one at [throwing_sink], which throws. *)
Module Stub.

Record script := Script {
  on_construct : option thrown;
  on_call      : completion bool
}.

#[global] Instance stub : NetworkInterfacesClass script := {
  NetworkInterfaces := unit;
  NetworkInterfaces_ctor s :=
    match on_construct s with
    | Some t => (Thrown t, s)
    | None => (Normal tt, s)
    end;
  SetTopMetricForInterfaceByAlias _ _ s := (on_call s, s);
  NetworkInterfaces_dtor _ s := s
}.

(** L"tun0" *)
Definition tun0 : const_wchar_ptr := Some [116; 117; 110; 48]%N.
(** L"eth1" *)
Definition eth1 : const_wchar_ptr := Some [101; 116; 104; 49]%N.

Definition found : script := Script None (Normal true).
Definition not_found : script := Script None (Normal false).
Definition call_fails (what : string) : script :=
  Script None (Thrown (std_exception what)).
Definition call_fails_untyped (payload : Z) : script :=
  Script None (Thrown (foreign_object payload)).
Definition ctor_fails (what : string) : script :=
  Script (Some (std_exception what)) (Normal true).
Definition ctor_fails_untyped (payload : Z) : script :=
  Script (Some (foreign_object payload)) (Normal true).

(** Addresses of three callbacks and of two context blocks of the caller. *)
Definition log_error : WinRouteErrorSink := 4198400%N.
Definition print_error : WinRouteErrorSink := 4198656%N.
Definition throwing_sink : WinRouteErrorSink := 4198912%N.
Definition ctx_a : void_ptr := 1245120%N.
Definition ctx_b : void_ptr := 1245184%N.

(** What the callback at an address does:
    [throw std::runtime_error("sink failed")] at [throwing_sink], plain return
    elsewhere. *)
Definition behaviour (f : WinRouteErrorSink) : completion unit :=
  if N.eqb f throwing_sink then Thrown (std_exception "sink failed")
  else Normal tt.

#[global] Instance stub_sinks : ErrorSinks script := {
  invoke_sink f _ _ s := (behaviour f, s)
}.

End Stub.

(** ** A journalling collaborator

    A second test double: it follows a script as the stub does, and keeps in
    the state a journal of what was done, in order, the runs of the callbacks
    included. *)
Module Journal.

Inductive step :=
| Constructed
| MetricRequested (alias : const_wchar_ptr)
| Destroyed
| SinkRan (f : WinRouteErrorSink) (msg : string) (ctx : void_ptr).

Record os := Os {
  script  : Stub.script;
  journal : list step
}.

Definition log (e : step) (s : os) : os :=
  Os (script s) (journal s ++ [e]).

#[global] Instance journalling : NetworkInterfacesClass os := {
  NetworkInterfaces := unit;
  NetworkInterfaces_ctor s :=
    match Stub.on_construct (script s) with
    | Some t => (Thrown t, s)
    | None => (Normal tt, log Constructed s)
    end;
  SetTopMetricForInterfaceByAlias _ alias s :=
    (Stub.on_call (script s), log (MetricRequested alias) s);
  NetworkInterfaces_dtor _ s := log Destroyed s
}.

#[global] Instance journalling_sinks : ErrorSinks os := {
  invoke_sink f msg ctx s := (Stub.behaviour f, log (SinkRan f msg ctx) s)
}.

End Journal.

(** [throw std::runtime_error(std::string())] from the member function:
    an object derived from [std::exception] whose [what()] is the empty
    string; the run with a non-null sink that returns. *)
Definition empty_what_run : outcome Stub.script int32_t :=
  WinRoute_EnsureTopMetric Stub.tun0 Stub.log_error Stub.ctx_a
    (Stub.call_fails EmptyString).

(** The member function throws an object derived from [std::exception]; the
    callback behind the sink throws in its turn. *)
Definition throwing_sink_run : outcome Stub.script int32_t :=
  WinRoute_EnsureTopMetric Stub.tun0 Stub.throwing_sink Stub.ctx_a
    (Stub.call_fails "Failed to set metric").

(** The same, with the first failure in the constructor. *)
Definition throwing_sink_ctor_run : outcome Stub.script int32_t :=
  WinRoute_EnsureTopMetric Stub.tun0 Stub.throwing_sink Stub.ctx_a
    (Stub.ctor_fails "GetAdaptersAddresses failed").

(** ** Lemmas on the adapter, by outcome of the collaborator *)

(** Case analysis along the control flow of the adapter: null sink or not,
    constructor, member function, callback. *)
Ltac adapter_cases errorSink s :=
  unfold WinRoute_EnsureTopMetric, handler_completion, collaborator_outcome,
    collaborator_effect, try_catch, bind, scope_of, external, ret, call_sink,
    report;
  destruct (N.eqb nullptr errorSink);
  destruct (NetworkInterfaces_ctor s) as [[? | [? | ?]] ?];
  cbn;
  try match goal with
      | |- context [SetTopMetricForInterfaceByAlias ?i ?a ?st] =>
          destruct (SetTopMetricForInterfaceByAlias i a st)
            as [[[ | ] | [? | ?]] ?]; cbn
      end;
  try match goal with
      | |- context [invoke_sink ?f ?m ?c ?st] =>
          destruct (invoke_sink f m c st) as [[[] | ?] ?]; cbn
      end;
  try reflexivity.

Section AdapterFacts.
Context {OS : Type} {NI : NetworkInterfacesClass OS} {ES : ErrorSinks OS}.
Variables (deviceAlias : const_wchar_ptr)
          (errorSink : WinRouteErrorSink)
          (errorSinkContext : void_ptr)
          (s : OS).

Let run := WinRoute_EnsureTopMetric deviceAlias errorSink errorSinkContext s.

(** The trace of a run. *)
Lemma run_calls :
  sink_calls run =
  match collaborator_outcome deviceAlias s with
  | Thrown (std_exception what) => report errorSink what errorSinkContext
  | _ => []
  end.
Proof. subst run. adapter_cases errorSink s. Qed.

(** The completion of a run. *)
Lemma run_res :
  res run =
  match collaborator_outcome deviceAlias s with
  | Normal metrics_set => Normal (if metrics_set then 1 else 0)
  | Thrown (std_exception what) =>
      handler_completion deviceAlias errorSink errorSinkContext s what
  | Thrown (foreign_object _) => Normal (-1)
  end.
Proof. subst run. adapter_cases errorSink s. Qed.

(** The state a run leaves. *)
Lemma run_os :
  os_after run =
  match collaborator_outcome deviceAlias s with
  | Thrown (std_exception what) =>
      if N.eqb nullptr errorSink then collaborator_effect deviceAlias s
      else snd (invoke_sink errorSink what errorSinkContext
                  (collaborator_effect deviceAlias s))
  | _ => collaborator_effect deviceAlias s
  end.
Proof. subst run. adapter_cases errorSink s. Qed.

Lemma handler_completion_quiet (what : string) :
  errorSink = nullptr \/ sink_returns OS errorSink ->
  handler_completion deviceAlias errorSink errorSinkContext s what
  = Normal (-1).
Proof.
  unfold handler_completion.
  intros [-> | H]; [ reflexivity | ].
  destruct (N.eqb nullptr errorSink); [ reflexivity | ].
  now rewrite H.
Qed.

End AdapterFacts.

Lemma ctor_failure_outcome {OS : Type} {NI : NetworkInterfacesClass OS}
    (deviceAlias : const_wchar_ptr) (s : OS) (t : thrown) :
  fst (NetworkInterfaces_ctor s) = Thrown t ->
  collaborator_outcome deviceAlias s = Thrown t.
Proof.
  unfold collaborator_outcome.
  destruct (NetworkInterfaces_ctor s) as [[interfaces | t'] s1]; cbn;
    [ discriminate | ].
  intros E; injection E as ->. reflexivity.
Qed.

Lemma handler_completion_cases {OS : Type} {NI : NetworkInterfacesClass OS}
    {ES : ErrorSinks OS} (deviceAlias : const_wchar_ptr)
    (errorSink : WinRouteErrorSink) (errorSinkContext : void_ptr) (s : OS)
    (what : string) :
  handler_completion deviceAlias errorSink errorSinkContext s what
    = Normal (-1)
  \/ (errorSink <> nullptr /\
      exists t : thrown,
        fst (invoke_sink errorSink what errorSinkContext
               (collaborator_effect deviceAlias s)) = Thrown t /\
        handler_completion deviceAlias errorSink errorSinkContext s what
          = Thrown t).
Proof.
  unfold handler_completion.
  destruct (N.eqb_spec nullptr errorSink) as [E | NE]; [ now left | ].
  destruct (fst (invoke_sink errorSink what errorSinkContext
                   (collaborator_effect deviceAlias s))) as [u | t].
  - now left.
  - right. split; [ intros E; apply NE; now symmetry | ].
    exists t. split; reflexivity.
Qed.

Lemma report_length errorSink what ctx :
  (length (report errorSink what ctx) <= 1)%nat.
Proof. unfold report. destruct (N.eqb nullptr errorSink); cbn; lia. Qed.

Lemma report_null what ctx : report nullptr what ctx = [].
Proof. reflexivity. Qed.

Lemma report_nonnull errorSink what ctx :
  errorSink <> nullptr ->
  report errorSink what ctx = [SinkCall errorSink what ctx].
Proof.
  intros H. unfold report.
  destruct (N.eqb_spec nullptr errorSink) as [E | _]; [ | reflexivity ].
  now contradiction H.
Qed.

Lemma report_context errorSink what ctx c :
  In c (report errorSink what ctx) ->
  context c = ctx /\ callee c = errorSink /\ message c = what
  /\ errorSink <> nullptr.
Proof.
  unfold report.
  destruct (N.eqb_spec nullptr errorSink) as [E | NE]; cbn; [ tauto | ].
  intros [<- | []]. repeat split. intros E. apply NE. now symmetry.
Qed.

(** ** The test doubles at work *)

Example found_gives_1 :
  WinRoute_EnsureTopMetric Stub.tun0 Stub.log_error Stub.ctx_a Stub.found
  = Outcome (Normal 1) Stub.found [].
Proof. reflexivity. Qed.

Example not_found_gives_0 :
  WinRoute_EnsureTopMetric Stub.eth1 Stub.log_error Stub.ctx_a Stub.not_found
  = Outcome (Normal 0) Stub.not_found [].
Proof. reflexivity. Qed.

Example typed_failure_reported :
  WinRoute_EnsureTopMetric Stub.tun0 Stub.log_error Stub.ctx_a
    (Stub.call_fails "Failed to set metric")
  = Outcome (Normal (-1)) (Stub.call_fails "Failed to set metric")
      [SinkCall Stub.log_error "Failed to set metric" Stub.ctx_a].
Proof. reflexivity. Qed.

Example typed_failure_null_sink :
  WinRoute_EnsureTopMetric Stub.tun0 nullptr Stub.ctx_a
    (Stub.call_fails "Failed to set metric")
  = Outcome (Normal (-1)) (Stub.call_fails "Failed to set metric") [].
Proof. reflexivity. Qed.

Example untyped_failure_silent :
  WinRoute_EnsureTopMetric Stub.tun0 Stub.log_error Stub.ctx_a
    (Stub.call_fails_untyped 5)
  = Outcome (Normal (-1)) (Stub.call_fails_untyped 5) [].
Proof. reflexivity. Qed.

Example untyped_failure_throwing_sink :
  WinRoute_EnsureTopMetric Stub.tun0 Stub.throwing_sink Stub.ctx_a
    (Stub.call_fails_untyped 5)
  = Outcome (Normal (-1)) (Stub.call_fails_untyped 5) [].
Proof. reflexivity. Qed.

Example ctor_failure_reported :
  WinRoute_EnsureTopMetric Stub.tun0 Stub.log_error Stub.ctx_b
    (Stub.ctor_fails "GetAdaptersAddresses failed")
  = Outcome (Normal (-1)) (Stub.ctor_fails "GetAdaptersAddresses failed")
      [SinkCall Stub.log_error "GetAdaptersAddresses failed" Stub.ctx_b].
Proof. reflexivity. Qed.

(** What the callback throws leaves the function: the call is made inside the
    first handler, and [catch (...)] does not guard a handler. *)
Example throwing_sink_not_caught :
  throwing_sink_run
  = Outcome (Thrown (std_exception "sink failed"))
      (Stub.call_fails "Failed to set metric")
      [SinkCall Stub.throwing_sink "Failed to set metric" Stub.ctx_a].
Proof. reflexivity. Qed.

(** The object is destroyed on the way out of the [try] block, whether the
    member function returns or throws, and before the callback runs; it is
    not destroyed when it was never constructed. *)
Example journal_on_success :
  WinRoute_EnsureTopMetric Stub.tun0 Stub.log_error Stub.ctx_a
    (Journal.Os Stub.found [])
  = Outcome (Normal 1)
      (Journal.Os Stub.found
         [Journal.Constructed; Journal.MetricRequested Stub.tun0;
          Journal.Destroyed])
      [].
Proof. reflexivity. Qed.

Example journal_on_call_failure :
  WinRoute_EnsureTopMetric Stub.tun0 Stub.log_error Stub.ctx_a
    (Journal.Os (Stub.call_fails "Failed to set metric") [])
  = Outcome (Normal (-1))
      (Journal.Os (Stub.call_fails "Failed to set metric")
         [Journal.Constructed; Journal.MetricRequested Stub.tun0;
          Journal.Destroyed;
          Journal.SinkRan Stub.log_error "Failed to set metric" Stub.ctx_a])
      [SinkCall Stub.log_error "Failed to set metric" Stub.ctx_a].
Proof. reflexivity. Qed.

Example journal_on_ctor_failure :
  WinRoute_EnsureTopMetric Stub.tun0 Stub.log_error Stub.ctx_a
    (Journal.Os (Stub.ctor_fails_untyped 5) [])
  = Outcome (Normal (-1)) (Journal.Os (Stub.ctor_fails_untyped 5) []) [].
Proof. reflexivity. Qed.

(** ** The claims *)




(** C2. When the collaborator's [SetTopMetricForInterfaceByAlias] returns
    [true] for the alias, the status is 1 and the error sink is not called. *)
Theorem EnsureTopMetric_true_gives_1 :
  forall (OS : Type) (NI : NetworkInterfacesClass OS) (ES : ErrorSinks OS)
         (deviceAlias : const_wchar_ptr) (errorSink : WinRouteErrorSink)
         (errorSinkContext : void_ptr) (s : OS),
  collaborator_outcome deviceAlias s = Normal true ->
  res (WinRoute_EnsureTopMetric deviceAlias errorSink errorSinkContext s)
    = Normal 1
  /\ sink_calls (WinRoute_EnsureTopMetric deviceAlias errorSink errorSinkContext s)
    = [].
Proof.
  intros OS NI ES deviceAlias errorSink errorSinkContext s H.
  rewrite run_res, run_calls, H. split; reflexivity.
Qed.

Lemma EnsureTopMetric_true_gives_1_witness :
  collaborator_outcome Stub.tun0 Stub.found = Normal true
  /\ res (WinRoute_EnsureTopMetric Stub.tun0 Stub.log_error Stub.ctx_a Stub.found)
      = Normal 1
  /\ sink_calls
       (WinRoute_EnsureTopMetric Stub.tun0 Stub.log_error Stub.ctx_a Stub.found)
      = [].
Proof.
  split; [ reflexivity | ].
  apply (EnsureTopMetric_true_gives_1 Stub.script Stub.stub Stub.stub_sinks).
  reflexivity.
Defined.

(** C3. When the collaborator's [SetTopMetricForInterfaceByAlias] returns
    [false] for the alias without throwing, the status is 0 and the error
    sink is not called. *)
Theorem EnsureTopMetric_false_gives_0 :
  forall (OS : Type) (NI : NetworkInterfacesClass OS) (ES : ErrorSinks OS)
         (deviceAlias : const_wchar_ptr) (errorSink : WinRouteErrorSink)
         (errorSinkContext : void_ptr) (s : OS),
  collaborator_outcome deviceAlias s = Normal false ->
  res (WinRoute_EnsureTopMetric deviceAlias errorSink errorSinkContext s)
    = Normal 0
  /\ sink_calls (WinRoute_EnsureTopMetric deviceAlias errorSink errorSinkContext s)
    = [].
Proof.
  intros OS NI ES deviceAlias errorSink errorSinkContext s H.
  rewrite run_res, run_calls, H. split; reflexivity.
Qed.

Lemma EnsureTopMetric_false_gives_0_witness :
  collaborator_outcome Stub.eth1 Stub.not_found = Normal false
  /\ res (WinRoute_EnsureTopMetric Stub.eth1 Stub.log_error Stub.ctx_a
            Stub.not_found)
      = Normal 0
  /\ sink_calls
       (WinRoute_EnsureTopMetric Stub.eth1 Stub.log_error Stub.ctx_a
          Stub.not_found)
      = [].
Proof.
  split; [ reflexivity | ].
  apply (EnsureTopMetric_false_gives_0 Stub.script Stub.stub Stub.stub_sinks).
  reflexivity.
Defined.




(** C5. When the collaborator throws an object that is not derived from
    [std::exception], the status is -1 and the sink is not called, null or
    not. *)
Theorem EnsureTopMetric_untyped_failure_silent :
  forall (OS : Type) (NI : NetworkInterfacesClass OS) (ES : ErrorSinks OS)
         (deviceAlias : const_wchar_ptr) (errorSink : WinRouteErrorSink)
         (errorSinkContext : void_ptr) (s : OS) (payload : Z),
  collaborator_outcome deviceAlias s = Thrown (foreign_object payload) ->
  res (WinRoute_EnsureTopMetric deviceAlias errorSink errorSinkContext s)
    = Normal (-1)
  /\ sink_calls (WinRoute_EnsureTopMetric deviceAlias errorSink errorSinkContext s)
    = [].
Proof.
  intros OS NI ES deviceAlias errorSink errorSinkContext s payload H.
  rewrite run_res, run_calls, H. split; reflexivity.
Qed.

Lemma EnsureTopMetric_untyped_failure_silent_witness :
  collaborator_outcome Stub.tun0 (Stub.call_fails_untyped 5)
    = Thrown (foreign_object 5)
  /\ res (WinRoute_EnsureTopMetric Stub.tun0 Stub.log_error Stub.ctx_a
            (Stub.call_fails_untyped 5))
      = Normal (-1)
  /\ sink_calls (WinRoute_EnsureTopMetric Stub.tun0 Stub.log_error Stub.ctx_a
                   (Stub.call_fails_untyped 5))
      = [].
Proof.
  split; [ reflexivity | ].
  apply (EnsureTopMetric_untyped_failure_silent Stub.script Stub.stub
           Stub.stub_sinks _ _ _ _ 5).
  reflexivity.
Defined.

(** C6. With a null sink, whatever the collaborator throws, the status is -1
    and no call is made through the sink: the null pointer is never
    called. *)
Theorem EnsureTopMetric_null_sink_not_called :
  forall (OS : Type) (NI : NetworkInterfacesClass OS) (ES : ErrorSinks OS)
         (deviceAlias : const_wchar_ptr)
         (errorSinkContext : void_ptr) (s : OS) (t : thrown),
  collaborator_outcome deviceAlias s = Thrown t ->
  res (WinRoute_EnsureTopMetric deviceAlias nullptr errorSinkContext s)
    = Normal (-1)
  /\ sink_calls (WinRoute_EnsureTopMetric deviceAlias nullptr errorSinkContext s)
    = [].
Proof.
  intros OS NI ES deviceAlias errorSinkContext s [what | payload] H;
    rewrite run_res, run_calls, H; split; reflexivity.
Qed.

Lemma EnsureTopMetric_null_sink_not_called_witness :
  collaborator_outcome Stub.tun0 (Stub.call_fails "Failed to set metric")
    = Thrown (std_exception "Failed to set metric")
  /\ res (WinRoute_EnsureTopMetric Stub.tun0 nullptr Stub.ctx_a
            (Stub.call_fails "Failed to set metric"))
      = Normal (-1)
  /\ sink_calls (WinRoute_EnsureTopMetric Stub.tun0 nullptr Stub.ctx_a
                   (Stub.call_fails "Failed to set metric"))
      = [].
Proof.
  split; [ reflexivity | ].
  apply (EnsureTopMetric_null_sink_not_called Stub.script Stub.stub
           Stub.stub_sinks _ _ _ (std_exception "Failed to set metric")).
  reflexivity.
Defined.



(** C8. Every call made through the sink carries, as its context argument,
    the [errorSinkContext] pointer the caller passed in. *)
Theorem sink_context_passed_through :
  forall (OS : Type) (NI : NetworkInterfacesClass OS) (ES : ErrorSinks OS)
         (deviceAlias : const_wchar_ptr) (errorSink : WinRouteErrorSink)
         (errorSinkContext : void_ptr) (s : OS) (c : sink_call),
  In c (sink_calls
          (WinRoute_EnsureTopMetric deviceAlias errorSink errorSinkContext s)) ->
  context c = errorSinkContext.
Proof.
  intros OS NI ES deviceAlias errorSink errorSinkContext s c.
  rewrite run_calls.
  destruct (collaborator_outcome deviceAlias s) as [b | [what | payload]];
    intros Hin; try (now destruct Hin).
  now apply report_context in Hin.
Qed.

Lemma sink_context_passed_through_witness :
  In (SinkCall Stub.log_error "Failed to set metric" Stub.ctx_b)
     (sink_calls (WinRoute_EnsureTopMetric Stub.tun0 Stub.log_error Stub.ctx_b
                    (Stub.call_fails "Failed to set metric")))
  /\ context (SinkCall Stub.log_error "Failed to set metric" Stub.ctx_b)
      = Stub.ctx_b.
Proof.
  split; [ left; reflexivity | ].
  apply (sink_context_passed_through Stub.script Stub.stub Stub.stub_sinks
           Stub.tun0 Stub.log_error Stub.ctx_b
           (Stub.call_fails "Failed to set metric")).
  left; reflexivity.
Defined.







(** ** Further properties of the adapter *)


(** X2. The sink is called for one reason only. Every call made through it
    goes to the caller's own [errorSink], which is then not the null pointer,
    and its message is [what()] of an object derived from [std::exception]
    that the collaborator threw during this very call. *)
Theorem sink_call_justified :
  forall (OS : Type) (NI : NetworkInterfacesClass OS) (ES : ErrorSinks OS)
         (deviceAlias : const_wchar_ptr) (errorSink : WinRouteErrorSink)
         (errorSinkContext : void_ptr) (s : OS) (c : sink_call),
  In c (sink_calls
          (WinRoute_EnsureTopMetric deviceAlias errorSink errorSinkContext s)) ->
  callee c = errorSink
  /\ callee c <> nullptr
  /\ collaborator_outcome deviceAlias s = Thrown (std_exception (message c)).
Proof.
  intros OS NI ES deviceAlias errorSink errorSinkContext s c.
  rewrite run_calls.
  destruct (collaborator_outcome deviceAlias s) as [b | [what | payload]];
    intros Hin; try (now destruct Hin).
  apply report_context in Hin. destruct Hin as [_ [Hc [Hm Hnn]]].
  rewrite Hc, Hm. repeat split. exact Hnn.
Qed.

Lemma sink_call_justified_witness :
  In (SinkCall Stub.log_error "GetAdaptersAddresses failed" Stub.ctx_b)
     (sink_calls (WinRoute_EnsureTopMetric Stub.eth1 Stub.log_error Stub.ctx_b
                    (Stub.ctor_fails "GetAdaptersAddresses failed")))
  /\ callee (SinkCall Stub.log_error "GetAdaptersAddresses failed" Stub.ctx_b)
      = Stub.log_error
  /\ callee (SinkCall Stub.log_error "GetAdaptersAddresses failed" Stub.ctx_b)
      <> nullptr
  /\ collaborator_outcome Stub.eth1
       (Stub.ctor_fails "GetAdaptersAddresses failed")
      = Thrown (std_exception
                  (message (SinkCall Stub.log_error
                              "GetAdaptersAddresses failed" Stub.ctx_b))).
Proof.
  split; [ left; reflexivity | ].
  apply (sink_call_justified Stub.script Stub.stub Stub.stub_sinks Stub.eth1
           Stub.log_error Stub.ctx_b
           (Stub.ctor_fails "GetAdaptersAddresses failed")).
  left; reflexivity.
Defined.

(** X3. What a call does to the state, step by step. If the constructor
    throws, no member function and no destructor runs. If it returns an
    object, the member function is called once on that object with the
    caller's alias (null or not: the adapter checks nothing), and the object
    is destroyed afterwards, also when the member function throws. Only then,
    if what was thrown is derived from [std::exception] and the sink is not
    null, the callback runs, on the state left by the destructor; the state
    it leaves is the state of the call. The adapter adds nothing of its
    own. *)
Theorem system_effect_of_call :
  forall (OS : Type) (NI : NetworkInterfacesClass OS) (ES : ErrorSinks OS)
         (deviceAlias : const_wchar_ptr) (errorSink : WinRouteErrorSink)
         (errorSinkContext : void_ptr) (s : OS),
  let after_handler (t : thrown) (s' : OS) :=
    match t with
    | std_exception what =>
        if N.eqb nullptr errorSink then s'
        else snd (invoke_sink errorSink what errorSinkContext s')
    | foreign_object _ => s'
    end in
  os_after (WinRoute_EnsureTopMetric deviceAlias errorSink errorSinkContext s)
  = match NetworkInterfaces_ctor s with
    | (Thrown t, s1) => after_handler t s1
    | (Normal interfaces, s1) =>
        match SetTopMetricForInterfaceByAlias interfaces deviceAlias s1 with
        | (Normal _, s2) => NetworkInterfaces_dtor interfaces s2
        | (Thrown t, s2) =>
            after_handler t (NetworkInterfaces_dtor interfaces s2)
        end
    end.
Proof.
  intros OS NI ES deviceAlias errorSink errorSinkContext s after_handler.
  subst after_handler. adapter_cases errorSink s.
Qed.

(** X4. Nothing the collaborator throws leaves the function. If an exception
    does leave it, the sink was not null, the collaborator had thrown an
    object derived from [std::exception], and the exception is the one the
    callback threw when it was called with that object's [what()]. *)
Theorem only_the_sink_throws :
  forall (OS : Type) (NI : NetworkInterfacesClass OS) (ES : ErrorSinks OS)
         (deviceAlias : const_wchar_ptr) (errorSink : WinRouteErrorSink)
         (errorSinkContext : void_ptr) (s : OS) (t : thrown),
  res (WinRoute_EnsureTopMetric deviceAlias errorSink errorSinkContext s)
    = Thrown t ->
  errorSink <> nullptr
  /\ exists what : string,
       collaborator_outcome deviceAlias s = Thrown (std_exception what)
       /\ fst (invoke_sink errorSink what errorSinkContext
                 (collaborator_effect deviceAlias s)) = Thrown t.
Proof.
  intros OS NI ES deviceAlias errorSink errorSinkContext s t.
  rewrite run_res.
  destruct (collaborator_outcome deviceAlias s) as [b | [what | payload]];
    try (intros E; discriminate E).
  destruct (handler_completion_cases deviceAlias errorSink errorSinkContext
              s what) as [E | [Hnn [t' [Hthrows E]]]];
    rewrite E; intros H; [ discriminate H | ].
  injection H as <-. split; [ exact Hnn | ].
  exists what. split; [ reflexivity | exact Hthrows ].
Qed.

Lemma only_the_sink_throws_witness :
  res throwing_sink_run = Thrown (std_exception "sink failed")
  /\ Stub.throwing_sink <> nullptr
  /\ exists what : string,
       collaborator_outcome Stub.tun0 (Stub.call_fails "Failed to set metric")
         = Thrown (std_exception what)
       /\ fst (invoke_sink Stub.throwing_sink what Stub.ctx_a
                 (collaborator_effect Stub.tun0
                    (Stub.call_fails "Failed to set metric")))
          = Thrown (std_exception "sink failed").
Proof.
  split; [ reflexivity | ].
  apply (only_the_sink_throws Stub.script Stub.stub Stub.stub_sinks Stub.tun0
           Stub.throwing_sink Stub.ctx_a
           (Stub.call_fails "Failed to set metric")
           (std_exception "sink failed")).
  reflexivity.
Defined.


